(** * debug-host.py: host detection report

    A shallow embedding of the script [debug-host.py] and of the part of the
    Python runtime it calls, followed by the properties of its report.

    The script is a straight line of [print] calls.  Each one formats an
    f-string around a single query of the operating environment
    ([platform.system()], [os.uname()], [os.environ.get], [os.path.exists],
    ...).  The embedding threads a process state through a small
    state-and-exception monad [Py]: the host the process runs on, the
    arguments it was started with, what it has written to standard output,
    the source line being executed, the encoding of standard output and
    the system calls made besides plain queries.

    Modelling conventions.
    - Strings are [string], the bytes of a text.  Standard output has an
      encoding, fixed when the interpreter starts from the environment
      ([PYTHONIOENCODING], the locale variables).  [print] raises
      [UnicodeEncodeError] on a text the encoding cannot take.  ASCII
      characters encode under every encoding.
    - Platform values and the kernel info are ASCII texts.  The value of
      an environment variable is any string.
    - The device behind standard output takes every write.
    - [platform.platform()] (Python 3.9 and later) asks for the processor
      name: except on [win32] and [OpenVMS] it opens [/dev/null] for
      reading and writing and starts [uname -p], found through [PATH]; its
      answer depends on that.
    - [os.stat] is the host's answer for a path: found, or one of the
      [OSError]s; [os.path.exists] is the library function that turns every
      such error into [False].
    - [os.uname] exists on Unix only; where it is missing, looking the
      attribute up raises [AttributeError].
    - [repr] on ASCII text, used by [str(os.uname())] to show the five
      fields, is a parameter of the development. *)

From Stdlib Require Import Ascii String.
From stdpp Require Import base strings gmap list.

Open Scope string_scope.

(** ** Texts *)

Definition is_ascii_char (c : ascii) : bool :=
  match c with
  | Ascii _ _ _ _ _ _ _ b7 => negb b7
  end.

Fixpoint is_ascii (s : string) : bool :=
  match s with
  | EmptyString => true
  | String c s' => is_ascii_char c && is_ascii s'
  end.

(** A text of ASCII characters only. *)
Record atext : Type := Atext {
  text :> string;
  text_is_ascii : is_ascii text = true
}.

Notation "'lit' s" := (Atext s eq_refl) (at level 10, s at level 9).

(** The encoding of standard output, as its verdict on a text that
    opens with a character outside ASCII. *)
Definition codec : Type := string → bool.

(** Can the encoding take the text?  ASCII characters always encode, so
    the verdict is asked on what is left after the leading ASCII
    characters. *)
Fixpoint accepts (k : codec) (s : string) : bool :=
  match s with
  | EmptyString => true
  | String c s' => if is_ascii_char c then accepts k s' else k s
  end.

(** The interpreter's start-up: the encoding it gives standard output,
    read from the environment. *)
Class Startup : Type := stdout_encoding : gmap string string → codec.

(** ** Hosts *)

(** The [OSError]s [os.stat] raises for a path it cannot resolve. *)
Inductive os_error : Type :=
| ENOENT        (* FileNotFoundError *)
| EACCES        (* PermissionError *)
| ENOTDIR       (* NotADirectoryError *)
| ELOOP
| ENAMETOOLONG.

Inductive stat_outcome : Type :=
| StatOk
| StatError (e : os_error).

(** [posix.uname_result]: the kernel info tuple. *)
Record uname_result : Type := UnameResult {
  sysname : atext;
  nodename : atext;
  release : atext;
  version : atext;
  machine : atext
}.

(** What the script can observe of the machine it runs on.  [host_uname]
    is [None] on an operating system without the [uname] call.
    [host_platform] is the answer of [platform.platform()] given the value
    of [PATH], through which it finds its helper. *)
Record Host : Type := MkHost {
  host_system : atext;
  host_machine : atext;
  host_platform : option string → atext;
  host_sys_platform : atext;
  host_uname : option uname_result;
  host_environ : gmap string string;
  host_stat : string → stat_outcome
}.

Definition with_environ (h : Host) (env : gmap string string) : Host :=
  MkHost (host_system h) (host_machine h) (host_platform h)
         (host_sys_platform h) (host_uname h) env (host_stat h).

(** ** Processes and the [Py] monad *)

Inductive exn : Type :=
| AttributeError (obj attr : string)
| UnicodeEncodeError (object : string).

Inductive outcome (A : Type) : Type :=
| Returned (a : A)
| Raised (e : exn).
Arguments Returned {A} a.
Arguments Raised {A} e.

Inductive open_mode : Type := ReadOnly | ReadWrite.

(** The system calls of a process that are more than a query. *)
Inductive syscall : Type :=
| Open (path : string) (mode : open_mode)
| Spawn (command : list string).

(** [stdout] holds the texts handed to [print], oldest first. *)
Record World : Type := MkWorld {
  host : Host;
  argv : list string;
  stdout : list string;
  lineno : nat;
  encoding : codec;
  syscalls : list syscall
}.

Definition Py (A : Type) : Type := World → outcome A * World.

#[export] Instance Py_ret : MRet Py := λ A a w, (Returned a, w).

#[export] Instance Py_bind : MBind Py := λ A B k m w,
  match m w with
  | (Returned a, w') => k a w'
  | (Raised e, w') => (Raised e, w')
  end.

Definition raise {A : Type} (e : exn) : Py A := λ w, (Raised e, w).

(** The statement at source line [n]. *)
Definition line {A : Type} (n : nat) (m : Py A) : Py A := λ w,
  m (MkWorld (host w) (argv w) (stdout w) n (encoding w) (syscalls w)).

(** ** Runtime primitives *)

Definition print (s : string) : Py unit := λ w,
  if accepts (encoding w) s
  then (Returned tt,
        MkWorld (host w) (argv w) (stdout w ++ [s]) (lineno w)
                (encoding w) (syscalls w))
  else raise (UnicodeEncodeError s) w.

Definition platform_system : Py string := λ w,
  (Returned (text (host_system (host w))), w).
Definition platform_machine : Py string := λ w,
  (Returned (text (host_machine (host w))), w).

(** What [platform.platform()] does to learn the processor name. *)
Definition processor_probe (h : Host) : list syscall :=
  if decide (text (host_sys_platform h) = "win32"
             ∨ text (host_sys_platform h) = "OpenVMS")
  then []
  else [Open "/dev/null" ReadWrite; Spawn ["uname"; "-p"]].

Definition platform_platform : Py string := λ w,
  (Returned (text (host_platform (host w) (host_environ (host w) !! "PATH"))),
   MkWorld (host w) (argv w) (stdout w) (lineno w) (encoding w)
           (syscalls w ++ processor_probe (host w))).

Definition sys_platform : Py string := λ w,
  (Returned (text (host_sys_platform (host w))), w).

(** [sys.argv]: there for a script to read; this one never does. *)
Definition sys_argv : Py (list string) := λ w, (Returned (argv w), w).

Definition os_uname : Py uname_result := λ w,
  match host_uname (host w) with
  | Some u => (Returned u, w)
  | None => raise (AttributeError "os" "uname") w
  end.

(** [os.environ.get(key, default)] *)
Definition os_environ_get (key fallback : string) : Py string := λ w,
  (Returned (default fallback (host_environ (host w) !! key)), w).

(** [os.environ[key] = value], for a name and a value the system takes:
    there for a script to call; this one never does. *)
Definition os_environ_set (key value : string) : Py unit := λ w,
  (Returned tt,
   MkWorld (with_environ (host w) (<[key := value]> (host_environ (host w))))
           (argv w) (stdout w) (lineno w) (encoding w) (syscalls w)).

(** [os.stat(path)], as far as its raising or not goes. *)
Definition os_stat (path : string) (w : World) : stat_outcome :=
  host_stat (host w) path.

(** [os.path.exists(path)]: the library catches every [OSError] of
    [os.stat] and answers [False]. *)
Definition os_path_exists (path : string) : Py bool := λ w,
  match os_stat path w with
  | StatOk => (Returned true, w)
  | StatError _ => (Returned false, w)
  end.

(** [str] on [bool]. *)
Definition str_bool (b : bool) : string := if b then "True" else "False".

Definition newline : string := String "010"%char EmptyString.
Definition dquote : string := String "034"%char EmptyString.

(** The text a terminal shows for what was printed: [print] ends every
    text with a newline. *)
Definition stdout_text (printed : list string) : string :=
  foldr (λ s rest, s +:+ newline +:+ rest) "" printed.

(** The lines of a text, cut at every newline. *)
Fixpoint lines (s : string) : list string :=
  match s with
  | EmptyString => [""]
  | String c s' =>
      if Ascii.eqb c "010"%char then "" :: lines s'
      else match lines s' with
           | [] => [String c ""]
           | l :: ls => String c l :: ls
           end
  end.

(** [needle] occurs in [hay] as a run of consecutive characters. *)
Definition contains (hay needle : string) : Prop :=
  ∃ before after, hay = before +:+ needle +:+ after.

Section Script.

Context `{Startup}.

(** [repr] of the runtime on ASCII text. *)
Variable repr : atext → atext.

(** [str] on [posix.uname_result]. *)
Definition str_uname (u : uname_result) : string :=
  "posix.uname_result(sysname=" +:+ repr (sysname u) +:+
  ", nodename=" +:+ repr (nodename u) +:+
  ", release=" +:+ repr (release u) +:+
  ", version=" +:+ repr (version u) +:+
  ", machine=" +:+ repr (machine u) +:+ ")".

(** ** The script, statement by statement *)

Definition ostype_placeholder : string := "not set".

Definition report_system : Py unit :=
  s ← platform_system; print ("Python platform.system(): " +:+ s).

Definition report_machine : Py unit :=
  s ← platform_machine; print ("Python platform.machine(): " +:+ s).

Definition report_platform : Py unit :=
  s ← platform_platform; print ("Python platform.platform(): " +:+ s).

Definition report_sys_platform : Py unit :=
  s ← sys_platform; print ("Python sys.platform: " +:+ s).

Definition report_uname : Py unit :=
  u ← os_uname; print ("OS uname: " +:+ str_uname u).

Definition report_ostype : Py unit :=
  s ← os_environ_get "OSTYPE" ostype_placeholder;
  print ("Environment OSTYPE: " +:+ s).

(** [print(f"<path> exists: {os.path.exists('<path>')}")] *)
Definition report_exists (path : string) : Py unit :=
  b ← os_path_exists path; print (path +:+ " exists: " +:+ str_bool b).

Definition probed_paths : list string :=
  ["/proc"; "/sys"; "/run"; "/lib64"; "/System"; "/Applications"; "/usr/lib/dyld"].

Definition main : Py unit :=
  line 7 (print "=== Host Detection Debug ===");;
  line 8 report_system;;
  line 9 report_machine;;
  line 10 report_platform;;
  line 11 report_sys_platform;;
  line 12 report_uname;;
  line 13 report_ostype;;
  line 16 (print (newline +:+ "=== Virtualization Check ==="));;
  line 17 (report_exists "/proc");;
  line 18 (report_exists "/sys");;
  line 19 (report_exists "/run");;
  line 20 (report_exists "/lib64");;
  line 23 (report_exists "/System");;
  line 24 (report_exists "/Applications");;
  line 25 (report_exists "/usr/lib/dyld");;
  line 27 (print (newline +:+ "=== Manual Meson Check ==="));;
  line 28 (print ("Try running: python3 -c " +:+ dquote +:+
                  "import platform; print(platform.system())" +:+ dquote)).

(** ** The interpreter around the script *)

Record traceback : Type := MkTraceback {
  tb_lineno : nat;
  tb_exn : exn
}.

(** What is left of a run: the exit status, the texts printed, the
    traceback written to standard error, the system calls made besides
    plain queries, and the host as the run left it. *)
Record Completed : Type := MkCompleted {
  exit_code : nat;
  out : list string;
  err : option traceback;
  effects : list syscall;
  host_after : Host
}.

(** [python3 script args] on host [h]: standard output gets its encoding
    from the environment; an exception nobody caught is reported as a
    traceback and the process exits with status 1. *)
Definition python3 (script : Py unit) (h : Host) (args : list string) : Completed :=
  match script (MkWorld h args [] 0 (stdout_encoding (host_environ h)) []) with
  | (Returned _, w) => MkCompleted 0 (stdout w) None (syscalls w) (host w)
  | (Raised e, w) =>
      MkCompleted 1 (stdout w) (Some (MkTraceback (lineno w) e)) (syscalls w) (host w)
  end.

Definition debug_host (h : Host) (args : list string) : Completed :=
  python3 main h args.

End Script.

(** ** Vocabulary of the statements *)

(** The world when the statement at line [n] starts. *)
Definition at_line (n : nat) (w : World) : World :=
  MkWorld (host w) (argv w) (stdout w) n (encoding w) (syscalls w).

(** The world after [print s]. *)
Definition emit (s : string) (w : World) : World :=
  MkWorld (host w) (argv w) (stdout w ++ [s]) (lineno w)
          (encoding w) (syscalls w).

(** Statement [m], started in [w], returns normally, having printed [s]
    and changed nothing else. *)
Definition prints (m : Py unit) (w : World) (s : string) : Prop :=
  m w = (Returned tt, emit s w).

Definition fails {A : Type} (m : Py A) (w : World) : Prop :=
  ∃ e, (m w).1 = Raised e.

(** What [os.path.exists] answers on host [h]. *)
Definition path_found (h : Host) (path : string) : bool :=
  match host_stat h path with
  | StatOk => true
  | StatError _ => false
  end.

(** What the [OSTYPE] line shows after its label. *)
Definition ostype_shown (h : Host) : string :=
  default ostype_placeholder (host_environ h !! "OSTYPE").

(** Does the encoding a run on [h] gives standard output take what the
    [OSTYPE] line shows?  It does when the variable is unset: the
    placeholder is ASCII. *)
Definition takes_ostype `{Startup} (h : Host) : bool :=
  accepts (stdout_encoding (host_environ h)) (ostype_shown h).

Fixpoint single_line (s : string) : bool :=
  match s with
  | EmptyString => true
  | String c s' => negb (Ascii.eqb c "010"%char) && single_line s'
  end.

(** The output of run [c] has the line [l]. *)
Definition shows (c : Completed) (l : string) : Prop :=
  In l (lines (stdout_text (out c))).

(** What a user sees of a run: the text on standard output, the exit
    status and the traceback. *)
Definition same_result (c1 c2 : Completed) : Prop :=
  stdout_text (out c1) = stdout_text (out c2) ∧
  exit_code c1 = exit_code c2 ∧
  err c1 = err c2.

(** The state of a host, as far as a report can tell: platform values,
    kernel info, environment variables and which paths exist. *)
Definition same_host_state (h1 h2 : Host) : Prop :=
  host_system h1 = host_system h2 ∧
  host_machine h1 = host_machine h2 ∧
  host_platform h1 = host_platform h2 ∧
  host_sys_platform h1 = host_sys_platform h2 ∧
  host_uname h1 = host_uname h2 ∧
  host_environ h1 = host_environ h2 ∧
  ∀ path, path_found h1 path = path_found h2 path.

(** The system calls the script makes besides plain queries: those of
    the processor probe. *)
Definition probe_call (c : syscall) : Prop :=
  c = Open "/dev/null" ReadWrite ∨ c = Spawn ["uname"; "-p"].

(** [m] leaves the host as it is: whatever world it is started in, the
    host (environment and file system), the arguments and the encoding
    are as they were, what was printed has only grown, and the system
    calls made are those of the processor probe. *)
Definition leaves_host_alone {A : Type} (m : Py A) : Prop :=
  ∀ w, host (m w).2 = host w ∧
       argv (m w).2 = argv w ∧
       encoding (m w).2 = encoding w ∧
       (∃ printed, stdout (m w).2 = (stdout w ++ printed)%list) ∧
       (∃ calls, syscalls (m w).2 = (syscalls w ++ calls)%list ∧
                 Forall probe_call calls).

(** The label that opens each line of the report. *)
Definition documented_labels : list string :=
  ["Python platform.system(): "; "Python platform.machine(): ";
   "Python platform.platform(): "; "Python sys.platform: ";
   "OS uname: "; "Environment OSTYPE: "] ++
  map (λ path, path +:+ " exists: ") probed_paths.

(** The texts printed before the kernel info line. *)
Definition report_before_uname (h : Host) : list string :=
  [ "=== Host Detection Debug ===";
    "Python platform.system(): " +:+ host_system h;
    "Python platform.machine(): " +:+ host_machine h;
    "Python platform.platform(): " +:+
      host_platform h (host_environ h !! "PATH");
    "Python sys.platform: " +:+ host_sys_platform h ].

(** The texts printed before the [OSTYPE] line. *)
Definition report_before_ostype (repr : atext → atext) (h : Host)
    (u : uname_result) : list string :=
  (report_before_uname h ++ ["OS uname: " +:+ str_uname repr u])%list.

(** The texts printed by a run that reaches its last statement. *)
Definition full_report (repr : atext → atext) (h : Host) (u : uname_result) : list string :=
  [ "=== Host Detection Debug ===";
    "Python platform.system(): " +:+ host_system h;
    "Python platform.machine(): " +:+ host_machine h;
    "Python platform.platform(): " +:+
      host_platform h (host_environ h !! "PATH");
    "Python sys.platform: " +:+ host_sys_platform h;
    "OS uname: " +:+ str_uname repr u;
    "Environment OSTYPE: " +:+ default ostype_placeholder (host_environ h !! "OSTYPE");
    newline +:+ "=== Virtualization Check ===";
    "/proc exists: " +:+ str_bool (path_found h "/proc");
    "/sys exists: " +:+ str_bool (path_found h "/sys");
    "/run exists: " +:+ str_bool (path_found h "/run");
    "/lib64 exists: " +:+ str_bool (path_found h "/lib64");
    "/System exists: " +:+ str_bool (path_found h "/System");
    "/Applications exists: " +:+ str_bool (path_found h "/Applications");
    "/usr/lib/dyld exists: " +:+ str_bool (path_found h "/usr/lib/dyld");
    newline +:+ "=== Manual Meson Check ===";
    "Try running: python3 -c " +:+ dquote +:+
      "import platform; print(platform.system())" +:+ dquote ].

(** ** Vocabulary of the further results *)

(** Two hosts answer every query of a run alike: the platform values
    (that of [platform.platform()] under each host's [PATH]), the kernel
    info, the lookup of [OSTYPE], whether the encoding of standard output
    takes what the [OSTYPE] line shows, and whether each of the probed
    paths is found. *)
Definition same_answers `{Startup} (h1 h2 : Host) : Prop :=
  host_system h1 = host_system h2 ∧
  host_machine h1 = host_machine h2 ∧
  host_platform h1 (host_environ h1 !! "PATH") =
    host_platform h2 (host_environ h2 !! "PATH") ∧
  host_sys_platform h1 = host_sys_platform h2 ∧
  host_uname h1 = host_uname h2 ∧
  host_environ h1 !! "OSTYPE" = host_environ h2 !! "OSTYPE" ∧
  takes_ostype h1 = takes_ostype h2 ∧
  ∀ path, In path probed_paths → path_found h1 path = path_found h2 path.

(** The hint printed by the last statement. *)
Definition meson_hint : string :=
  "Try running: python3 -c " +:+ dquote +:+
  "import platform; print(platform.system())" +:+ dquote.

(** The lines from the blank line before the first section header to
    the end of a full report; the empty line at the end is what follows
    the last newline. *)
Definition closing_lines (h : Host) : list string :=
  [""; "=== Virtualization Check ==="] ++
  map (λ path, path +:+ " exists: " +:+ str_bool (path_found h path))
      probed_paths ++
  [""; "=== Manual Meson Check ==="; meson_hint; ""].

(** ** Sample encodings *)

(** The [ascii] codec: nothing outside ASCII. *)
Definition ascii_strict : codec := λ _, false.

(** The [utf-8] codec with strict errors on the bytes of a value: the
    bytes must be well-formed UTF-8, since every other byte stands in the
    interpreter for a lone surrogate, which does not encode. *)
Inductive utf8_state : Type :=
| Utf8Start
| Utf8Expect (lo hi : N) (more : nat).

Definition utf8_step (st : utf8_state) (b : N) : option utf8_state :=
  match st with
  | Utf8Start =>
      if (b <? 128)%N then Some Utf8Start
      else if (b <? 194)%N then None
      else if (b <? 224)%N then Some (Utf8Expect 128 191 0)
      else if (b =? 224)%N then Some (Utf8Expect 160 191 1)
      else if (b =? 237)%N then Some (Utf8Expect 128 159 1)
      else if (b <? 240)%N then Some (Utf8Expect 128 191 1)
      else if (b =? 240)%N then Some (Utf8Expect 144 191 2)
      else if (b <? 244)%N then Some (Utf8Expect 128 191 2)
      else if (b =? 244)%N then Some (Utf8Expect 128 143 2)
      else None
  | Utf8Expect lo hi more =>
      if ((lo <=? b) && (b <=? hi))%N
      then Some (match more with
                 | O => Utf8Start
                 | S m => Utf8Expect 128 191 m
                 end)
      else None
  end.

Fixpoint utf8_run (st : utf8_state) (s : string) : bool :=
  match s with
  | EmptyString => match st with Utf8Start => true | _ => false end
  | String c s' =>
      match utf8_step st (N_of_ascii c) with
      | Some st' => utf8_run st' s'
      | None => false
      end
  end.

Definition utf8_strict : codec := utf8_run Utf8Start.

(** A start-up in a UTF-8 locale, as far as the sample environments
    go: [PYTHONIOENCODING=ascii] gives the [ascii] codec; without the
    variable, or with [PYTHONIOENCODING=utf-8], standard output is in
    UTF-8. *)
#[export] Instance sample_startup : Startup := λ env,
  match env !! "PYTHONIOENCODING" with
  | Some enc => if decide (enc = "ascii") then ascii_strict else utf8_strict
  | None => utf8_strict
  end.

(** ** Sample hosts *)

Definition is_ascii_app (a b : string) :
  is_ascii a = true → is_ascii b = true → is_ascii (a +:+ b) = true.
Proof.
  intros Ha Hb. induction a as [|c a IH]; [exact Hb |].
  cbn [is_ascii] in Ha. apply andb_prop in Ha as [Hc Ha].
  change (String c a +:+ b) with (String c (a +:+ b)).
  cbn [is_ascii]. now rewrite Hc, (IH Ha).
Qed.

(** [repr] on text without quotes, backslashes or control characters. *)
Definition plain_repr (s : atext) : atext :=
  Atext ("'" +:+ s +:+ "'")
        (is_ascii_app "'" (s +:+ "'") eq_refl
           (is_ascii_app s "'" (text_is_ascii s) eq_refl)).

(** A confined Linux process: the security policy denies [/sys]. *)
Definition linux_fs (path : string) : stat_outcome :=
  if decide (path ∈ ["/proc"; "/run"; "/lib64"]) then StatOk
  else if decide (path = "/sys") then StatError EACCES
  else StatError ENOENT.

Definition linux_uname : uname_result :=
  UnameResult (lit "Linux") (lit "buildbox") (lit "6.1.0")
              (lit "#1 SMP") (lit "x86_64").

Definition linux_host : Host :=
  MkHost (lit "Linux") (lit "x86_64")
    (λ _, lit "Linux-6.1.0-x86_64-with-glibc2.36") (lit "linux")
    (Some linux_uname)
    (<["OSTYPE" := "linux-gnu"]> (<["HOME" := "/root"]> ∅))
    linux_fs.

Definition linux_host_no_ostype : Host :=
  with_environ linux_host (<["HOME" := "/root"]> ∅).

(** The same machine seen through a file system that answers [ENOTDIR]
    where [linux_fs] answers [ENOENT]. *)
Definition linux_host_enotdir : Host :=
  MkHost (host_system linux_host) (host_machine linux_host)
    (host_platform linux_host) (host_sys_platform linux_host)
    (host_uname linux_host) (host_environ linux_host)
    (λ path, match linux_fs path with
             | StatError ENOENT => StatError ENOTDIR
             | o => o
             end).

(** The Linux machine with another environment and a file system that
    differs away from the probed paths. *)
Definition linux_host_elsewhere : Host :=
  MkHost (host_system linux_host) (host_machine linux_host)
    (host_platform linux_host) (host_sys_platform linux_host)
    (host_uname linux_host)
    (<["LANG" := "C"]> (<["OSTYPE" := "linux-gnu"]> ∅))
    (λ path, if decide (path = "/home") then StatOk
             else if decide (path = "/sys") then StatError ELOOP
             else linux_fs path).

(** The Linux machine with a two-line value in [OSTYPE]. *)
Definition linux_host_two_lines : Host :=
  with_environ linux_host
    (<["OSTYPE" := "linux-gnu" +:+ newline +:+ "/System exists: True"]> ∅).

(** The byte [0xFF]: no text in UTF-8. *)
Definition byte_ff : string := String "255"%char EmptyString.

(** The Linux machine with [OSTYPE] set to the byte [0xFF] and standard
    output in UTF-8. *)
Definition linux_host_bad_ostype : Host :=
  with_environ linux_host
    (<["OSTYPE" := byte_ff]> (<["PYTHONIOENCODING" := "utf-8"]> ∅)).

(** The letter e with an acute accent, in UTF-8. *)
Definition e_acute : string := String "195"%char (String "169"%char EmptyString).

Definition accent_env : gmap string string := <["OSTYPE" := e_acute]> ∅.

Definition accent_env_ascii : gmap string string :=
  <["PYTHONIOENCODING" := "ascii"]> accent_env.

(** A host without [os.uname] that happens to have a directory [/proc]
    on the current drive. *)
Definition windows_host : Host :=
  MkHost (lit "Windows") (lit "AMD64")
    (λ _, lit "Windows-10-10.0.19045-SP0") (lit "win32")
    None
    (<["OS" := "Windows_NT"]> ∅)
    (λ path, if decide (path = "/proc") then StatOk else StatError ENOENT).

(** A world on the Linux machine, standard output in UTF-8. *)
Definition linux_world (h : Host) (n : nat) : World :=
  MkWorld h [] [] n utf8_strict [].

(** * Properties *)

Lemma append_cons (x : ascii) (a b : string) :
  String x a +:+ b = String x (a +:+ b).
Proof. reflexivity. Qed.

Lemma append_assoc (a b c : string) : (a +:+ b) +:+ c = a +:+ (b +:+ c).
Proof.
  induction a as [|x a IH]; [reflexivity |].
  rewrite !append_cons. now rewrite IH.
Qed.

(** ** Lines of a printed text *)

Lemma lines_nonempty (s : string) : lines s ≠ [].
Proof.
  destruct s as [|c s]; cbn [lines]; [discriminate |].
  destruct (Ascii.eqb c "010"); [discriminate |].
  destruct (lines s); discriminate.
Qed.

Lemma lines_newline (t : string) : lines (newline +:+ t) = "" :: lines t.
Proof. reflexivity. Qed.

(** A text that opens with a newline-free [l]: its first line opens
    with [l], the later lines are those of the rest. *)
Lemma lines_single_line_app (l t : string) :
  single_line l = true →
  lines (l +:+ t) = (l +:+ hd "" (lines t)) :: tl (lines t).
Proof.
  induction l as [|c l IH]; intros Hl.
  - change ("" +:+ t) with t. pose proof (lines_nonempty t) as Hne.
    destruct (lines t); [congruence | reflexivity].
  - cbn [single_line] in Hl. apply andb_prop in Hl as [Hc Hl].
    rewrite append_cons. cbn [lines].
    destruct (Ascii.eqb c "010"); [discriminate |].
    rewrite (IH Hl). reflexivity.
Qed.

Lemma append_empty_r (s : string) : s +:+ "" = s.
Proof.
  induction s as [|c s IH]; [reflexivity |].
  rewrite append_cons. now rewrite IH.
Qed.

Lemma lines_first (l t : string) :
  single_line l = true →
  lines (l +:+ newline +:+ t) = l :: lines t.
Proof.
  intros Hl. rewrite (lines_single_line_app l _ Hl), lines_newline.
  cbn [hd tl]. now rewrite append_empty_r.
Qed.

(** Whatever precedes a newline, the lines after it are those of the
    rest of the text. *)
Lemma lines_after_newline (pre t : string) :
  ∃ f front, lines (pre +:+ newline +:+ t) = f :: (front ++ lines t)%list.
Proof.
  induction pre as [|c pre (f & front & IH)].
  - exists "", []. reflexivity.
  - rewrite append_cons. cbn [lines]. rewrite IH.
    destruct (Ascii.eqb c "010").
    + exists "", (f :: front). reflexivity.
    + exists (String c f), front. reflexivity.
Qed.

Lemma stdout_text_cons (s : string) (printed : list string) :
  stdout_text (s :: printed) = s +:+ newline +:+ stdout_text printed.
Proof. reflexivity. Qed.

(** A printed text without a newline is a line of the output. *)
Lemma printed_line_shown (printed : list string) (l : string) :
  single_line l = true → In l printed → In l (lines (stdout_text printed)).
Proof.
  intros Hl. induction printed as [|s printed IH]; intros Hin; [destruct Hin |].
  rewrite stdout_text_cons. destruct Hin as [-> | Hin].
  - rewrite (lines_first l _ Hl). now left.
  - destruct (lines_after_newline s (stdout_text printed)) as (f & front & ->).
    right. apply in_or_app. right. now apply IH.
Qed.

(** A printed text that opens with a newline-free label gives a line
    that opens with this label. *)
Lemma printed_label_shown (printed : list string) (label v : string) :
  single_line label = true →
  In (label +:+ v) printed →
  ∃ v', In (label +:+ v') (lines (stdout_text printed)).
Proof.
  intros Hl. induction printed as [|s printed IH]; intros Hin; [destruct Hin |].
  rewrite stdout_text_cons. destruct Hin as [-> | Hin].
  - rewrite append_assoc, (lines_single_line_app label _ Hl).
    eexists. left. reflexivity.
  - destruct (IH Hin) as [v' Hv'].
    destruct (lines_after_newline s (stdout_text printed)) as (f & front & ->).
    exists v'. right. apply in_or_app. now right.
Qed.

(** A printed text is in the output, followed by its newline. *)
Lemma printed_text_contained (printed : list string) (s : string) :
  In s printed → contains (stdout_text printed) (s +:+ newline).
Proof.
  induction printed as [|s0 printed IH]; intros Hin; [destruct Hin |].
  rewrite stdout_text_cons. destruct Hin as [-> | Hin].
  - exists "", (stdout_text printed). now rewrite append_assoc.
  - destruct (IH Hin) as (before & after & ->).
    exists (s0 +:+ newline +:+ before), after.
    now rewrite !append_assoc.
Qed.


Lemma single_line_app (a b : string) :
  single_line (a +:+ b) = single_line a && single_line b.
Proof.
  induction a as [|c a IH]; [reflexivity |].
  rewrite append_cons. cbn [single_line]. rewrite IH. apply andb_assoc.
Qed.

Lemma os_path_exists_found path w :
  os_path_exists path w = (Returned (path_found (host w) path), w).
Proof.
  unfold os_path_exists, os_stat, path_found.
  now destruct (host_stat (host w) path).
Qed.

(** ** More on the lines of a printed text *)

Lemma stdout_text_app (l1 l2 : list string) :
  stdout_text (l1 ++ l2) = stdout_text l1 +:+ stdout_text l2.
Proof.
  induction l1 as [|s l1 IH]; [reflexivity |].
  cbn [app]. rewrite !stdout_text_cons, IH. now rewrite !append_assoc.
Qed.

(** A text printed with a newline in front reads as an empty text
    followed by the text itself. *)
Lemma stdout_text_blank_before (s : string) (printed : list string) :
  stdout_text ((newline +:+ s) :: printed) = stdout_text ("" :: s :: printed).
Proof. rewrite !stdout_text_cons. now rewrite append_assoc. Qed.

(** Texts without newlines are the lines of what they print. *)
Lemma lines_of_single_lines (printed : list string) :
  Forall (λ s, single_line s = true) printed →
  lines (stdout_text printed) = (printed ++ [""])%list.
Proof.
  induction 1 as [|s printed Hs _ IH]; [reflexivity |].
  rewrite stdout_text_cons, (lines_first s _ Hs), IH. reflexivity.
Qed.

(** What a printed text holds after one of its newlines, up to the
    next, is a line of the output. *)
Lemma printed_continuation_shown (printed : list string) (a l : string) :
  single_line l = true →
  In (a +:+ newline +:+ l) printed →
  In l (lines (stdout_text printed)).
Proof.
  intros Hl. induction printed as [|s printed IH]; intros Hin; [destruct Hin |].
  rewrite stdout_text_cons. destruct Hin as [-> | Hin].
  - rewrite !append_assoc.
    destruct (lines_after_newline a (l +:+ newline +:+ stdout_text printed))
      as (f & front & ->).
    right. apply in_or_app. right. rewrite (lines_first l _ Hl). now left.
  - destruct (lines_after_newline s (stdout_text printed)) as (f & front & ->).
    right. apply in_or_app. right. now apply IH.
Qed.

Lemma single_line_str_bool (b : bool) : single_line (str_bool b) = true.
Proof. now destruct b. Qed.

Lemma str_bool_inj (b1 b2 : bool) : str_bool b1 = str_bool b2 → b1 = b2.
Proof. destruct b1, b2; intros H; first [reflexivity | discriminate H]. Qed.


(** ** Texts the encoding takes *)

Lemma accepts_ascii (k : codec) (s : string) :
  is_ascii s = true → accepts k s = true.
Proof.
  induction s as [|c s IH]; [reflexivity |].
  cbn [is_ascii accepts]. intros Hs. apply andb_prop in Hs as [Hc Hs].
  rewrite Hc. now apply IH.
Qed.

(** A label of ASCII characters does not change the verdict. *)
Lemma accepts_ascii_app (k : codec) (a b : string) :
  is_ascii a = true → accepts k (a +:+ b) = accepts k b.
Proof.
  induction a as [|c a IH]; [reflexivity |].
  cbn [is_ascii]. intros Ha. apply andb_prop in Ha as [Hc Ha].
  rewrite append_cons. cbn [accepts]. rewrite Hc. now apply IH.
Qed.

Lemma is_ascii_str_bool (b : bool) : is_ascii (str_bool b) = true.
Proof. now destruct b. Qed.

Lemma is_ascii_str_uname (repr : atext → atext) (u : uname_result) :
  is_ascii (str_uname repr u) = true.
Proof.
  unfold str_uname.
  repeat first [apply text_is_ascii | reflexivity | apply is_ascii_app].
Qed.

(** An ASCII text is its own name: two of them with the same characters
    are equal. *)
Lemma atext_eq (a b : atext) : text a = text b → a = b.
Proof.
  destruct a as [a Ha], b as [b Hb]. cbn. intros ->.
  f_equal. apply (proof_irrel Ha Hb).
Qed.

(** ** Frame of the primitives *)

Create HintDb py_frame.

Lemma alone_query {A : Type} (f : World → A) :
  leaves_host_alone (λ w, (Returned (f w), w)).
Proof.
  intros w. cbn. repeat split.
  - exists []. now rewrite app_nil_r.
  - exists []. split; [now rewrite app_nil_r | constructor].
Qed.

Lemma alone_print s : leaves_host_alone (print s).
Proof.
  intros w. unfold print, raise. destruct (accepts (encoding w) s); cbn.
  - repeat split; [now exists [s] |].
    exists []. split; [now rewrite app_nil_r | constructor].
  - repeat split.
    + exists []. now rewrite app_nil_r.
    + exists []. split; [now rewrite app_nil_r | constructor].
Qed.

Lemma alone_os_uname : leaves_host_alone os_uname.
Proof.
  intros w. unfold os_uname, raise. destruct (host_uname (host w)); cbn;
    (repeat split;
     [exists []; now rewrite app_nil_r
     | exists []; split; [now rewrite app_nil_r | constructor]]).
Qed.

Lemma alone_os_path_exists path : leaves_host_alone (os_path_exists path).
Proof.
  intros w. rewrite os_path_exists_found. cbn. repeat split.
  - exists []. now rewrite app_nil_r.
  - exists []. split; [now rewrite app_nil_r | constructor].
Qed.

Lemma probe_calls_of_probe h : Forall probe_call (processor_probe h).
Proof.
  unfold processor_probe. case_decide; [constructor |].
  constructor; [left; reflexivity |].
  constructor; [right; reflexivity |].
  constructor.
Qed.

Lemma alone_platform_platform : leaves_host_alone platform_platform.
Proof.
  intros w. cbn. repeat split.
  - exists []. now rewrite app_nil_r.
  - exists (processor_probe (host w)). split; [reflexivity |].
    apply probe_calls_of_probe.
Qed.

Lemma alone_bind {A B : Type} (m : Py A) (k : A → Py B) :
  leaves_host_alone m → (∀ a, leaves_host_alone (k a)) →
  leaves_host_alone (m ≫= k).
Proof.
  intros Hm Hk w. unfold mbind, Py_bind.
  destruct (Hm w) as (Hh & Ha & He & (printed & Hp) & (calls & Hc & Hcalls)).
  destruct (m w) as [[a | e] w']; cbn in *.
  - destruct (Hk a w')
      as (Hh' & Ha' & He' & (printed' & Hp') & (calls' & Hc' & Hcalls')).
    rewrite Hh', Ha', He', Hp', Hc', Hh, Ha, He, Hp, Hc. repeat split.
    + exists (printed ++ printed')%list. now rewrite app_assoc.
    + exists (calls ++ calls')%list. split; [now rewrite app_assoc |].
      now apply Forall_app.
  - repeat split; [assumption .. | now exists printed | now exists calls].
Qed.

Lemma alone_line {A : Type} n (m : Py A) :
  leaves_host_alone m → leaves_host_alone (line n m).
Proof. intros Hm w. exact (Hm (at_line n w)). Qed.

#[local] Hint Resolve alone_print alone_os_uname alone_os_path_exists
  alone_platform_platform alone_bind alone_line : py_frame.
#[local] Hint Extern 1 (leaves_host_alone platform_system) =>
  apply alone_query : py_frame.
#[local] Hint Extern 1 (leaves_host_alone platform_machine) =>
  apply alone_query : py_frame.
#[local] Hint Extern 1 (leaves_host_alone sys_platform) =>
  apply alone_query : py_frame.
#[local] Hint Extern 1 (leaves_host_alone (os_environ_get _ _)) =>
  apply alone_query : py_frame.

(** Setting a variable is not among the things that leave the host
    alone. *)
Lemma os_environ_set_changes_host :
  ¬ leaves_host_alone (os_environ_set "OSTYPE" "linux-gnu").
Proof.
  intros Halone.
  destruct (Halone (linux_world linux_host_no_ostype 1)) as (Hhost & _).
  apply (f_equal (λ h, host_environ h !! "OSTYPE")) in Hhost.
  vm_compute in Hhost. discriminate Hhost.
Qed.

Section Properties.

Context `{Startup}.

Variable repr : atext → atext.

(** ** Equations of the statements *)

Lemma bind_returned {A B : Type} (m : Py A) (k : A → Py B) w a w' :
  m w = (Returned a, w') → (m ≫= k) w = k a w'.
Proof. intros Hm. unfold mbind, Py_bind. now rewrite Hm. Qed.

Lemma bind_raised {A B : Type} (m : Py A) (k : A → Py B) w e w' :
  m w = (Raised e, w') → (m ≫= k) w = (Raised e, w').
Proof. intros Hm. unfold mbind, Py_bind. now rewrite Hm. Qed.

Lemma print_prints s w : accepts (encoding w) s = true → prints (print s) w s.
Proof. intros Hs. unfold prints, print. now rewrite Hs. Qed.

Lemma print_raises s w :
  accepts (encoding w) s = false → print s w = (Raised (UnicodeEncodeError s), w).
Proof. intros Hs. unfold print. now rewrite Hs. Qed.

Lemma print_ascii_prints s w : is_ascii s = true → prints (print s) w s.
Proof. intros Hs. apply print_prints. now apply accepts_ascii. Qed.

Lemma report_system_prints w :
  prints report_system w ("Python platform.system(): " +:+ host_system (host w)).
Proof.
  apply (print_ascii_prints _ w).
  apply is_ascii_app; [reflexivity | apply text_is_ascii].
Qed.

Lemma report_machine_prints w :
  prints report_machine w ("Python platform.machine(): " +:+ host_machine (host w)).
Proof.
  apply (print_ascii_prints _ w).
  apply is_ascii_app; [reflexivity | apply text_is_ascii].
Qed.

(** The platform line: printed, after the processor probe. *)
Lemma report_platform_runs w :
  report_platform w =
  (Returned tt,
   MkWorld (host w) (argv w)
     (stdout w ++ ["Python platform.platform(): " +:+
                   host_platform (host w) (host_environ (host w) !! "PATH")])
     (lineno w) (encoding w) (syscalls w ++ processor_probe (host w))).
Proof.
  unfold report_platform.
  erewrite bind_returned; [| reflexivity].
  apply print_ascii_prints.
  apply is_ascii_app; [reflexivity | apply text_is_ascii].
Qed.

Lemma report_sys_platform_prints w :
  prints report_sys_platform w ("Python sys.platform: " +:+ host_sys_platform (host w)).
Proof.
  apply (print_ascii_prints _ w).
  apply is_ascii_app; [reflexivity | apply text_is_ascii].
Qed.

Lemma report_uname_prints w u :
  host_uname (host w) = Some u →
  prints (report_uname repr) w ("OS uname: " +:+ str_uname repr u).
Proof.
  intros Hu. unfold prints, report_uname.
  erewrite bind_returned; [| unfold os_uname; now rewrite Hu].
  apply print_ascii_prints.
  apply is_ascii_app; [reflexivity | apply is_ascii_str_uname].
Qed.

Lemma report_uname_raises w :
  host_uname (host w) = None →
  report_uname repr w = (Raised (AttributeError "os" "uname"), w).
Proof.
  intros Hu. unfold report_uname.
  erewrite bind_raised; [reflexivity |].
  unfold os_uname. now rewrite Hu.
Qed.

Lemma accepts_ostype_text k s :
  accepts k ("Environment OSTYPE: " +:+ s) = accepts k s.
Proof. now apply accepts_ascii_app. Qed.

Lemma report_ostype_prints w :
  accepts (encoding w) (ostype_shown (host w)) = true →
  prints report_ostype w ("Environment OSTYPE: " +:+ ostype_shown (host w)).
Proof.
  intros Hs. unfold prints, report_ostype.
  erewrite bind_returned; [| reflexivity].
  apply print_prints. now rewrite accepts_ostype_text.
Qed.

Lemma report_ostype_raises w :
  accepts (encoding w) (ostype_shown (host w)) = false →
  report_ostype w =
  (Raised (UnicodeEncodeError ("Environment OSTYPE: " +:+ ostype_shown (host w))), w).
Proof.
  intros Hs. unfold report_ostype.
  erewrite bind_returned; [| reflexivity].
  apply print_raises. now rewrite accepts_ostype_text.
Qed.

Lemma report_exists_prints path w :
  is_ascii path = true →
  prints (report_exists path) w
    (path +:+ " exists: " +:+ str_bool (path_found (host w) path)).
Proof.
  intros Hpath. unfold prints, report_exists.
  erewrite bind_returned; [| apply os_path_exists_found].
  apply print_ascii_prints.
  repeat first [exact Hpath | reflexivity | apply is_ascii_str_bool
               | apply is_ascii_app].
Qed.

Lemma probed_paths_ascii path : In path probed_paths → is_ascii path = true.
Proof.
  unfold probed_paths. intros Hin.
  repeat (destruct Hin as [<- | Hin]; [reflexivity |]).
  destruct Hin.
Qed.

Lemma line_bind_returned {A B : Type} n (m : Py A) (k : A → Py B) w a w' :
  m (at_line n w) = (Returned a, w') → (line n m ≫= k) w = k a w'.
Proof. intros Hm. apply bind_returned. exact Hm. Qed.

(** ** The three courses of a run *)

Ltac run_line tac :=
  erewrite line_bind_returned; [| tac];
  unfold emit, at_line; cbn [host argv stdout lineno encoding syscalls].

Ltac run_to_uname :=
  run_line ltac:(apply print_ascii_prints; reflexivity);
  run_line ltac:(apply report_system_prints);
  run_line ltac:(apply report_machine_prints);
  run_line ltac:(apply report_platform_runs);
  run_line ltac:(apply report_sys_platform_prints).

Lemma main_returns w u :
  host_uname (host w) = Some u →
  accepts (encoding w) (ostype_shown (host w)) = true →
  main repr w =
  (Returned tt,
   MkWorld (host w) (argv w) (stdout w ++ full_report repr (host w) u) 28
           (encoding w) (syscalls w ++ processor_probe (host w))).
Proof.
  destruct w as [h a printed n k calls]. cbn [host argv stdout encoding syscalls].
  intros Hu Hs. unfold main. run_to_uname.
  run_line ltac:(apply report_uname_prints; exact Hu).
  run_line ltac:(apply report_ostype_prints; exact Hs).
  run_line ltac:(apply print_ascii_prints; reflexivity).
  do 7 (run_line ltac:(apply report_exists_prints; reflexivity)).
  run_line ltac:(apply print_ascii_prints; reflexivity).
  unfold line; cbn [host argv stdout lineno encoding syscalls].
  match goal with
  | |- print ?s ?w = _ =>
      rewrite (print_ascii_prints s w) by reflexivity
  end.
  unfold emit, full_report, ostype_shown;
    cbn [host argv stdout lineno encoding syscalls].
  rewrite <- !app_assoc. reflexivity.
Qed.

Lemma main_raises_at_uname w :
  host_uname (host w) = None →
  main repr w =
  (Raised (AttributeError "os" "uname"),
   MkWorld (host w) (argv w) (stdout w ++ report_before_uname (host w)) 12
           (encoding w) (syscalls w ++ processor_probe (host w))).
Proof.
  destruct w as [h a printed n k calls]. cbn [host argv stdout encoding syscalls].
  intros Hu. unfold main. run_to_uname.
  erewrite bind_raised; [| unfold line; apply report_uname_raises; exact Hu].
  unfold report_before_uname. rewrite <- !app_assoc. reflexivity.
Qed.

Lemma main_raises_at_ostype w u :
  host_uname (host w) = Some u →
  accepts (encoding w) (ostype_shown (host w)) = false →
  main repr w =
  (Raised (UnicodeEncodeError ("Environment OSTYPE: " +:+ ostype_shown (host w))),
   MkWorld (host w) (argv w) (stdout w ++ report_before_ostype repr (host w) u) 13
           (encoding w) (syscalls w ++ processor_probe (host w))).
Proof.
  destruct w as [h a printed n k calls]. cbn [host argv stdout encoding syscalls].
  intros Hu Hs. unfold main. run_to_uname.
  run_line ltac:(apply report_uname_prints; exact Hu).
  erewrite bind_raised; [| unfold line; apply report_ostype_raises; exact Hs].
  unfold report_before_ostype, report_before_uname; cbn [host app].
  rewrite <- !app_assoc. reflexivity.
Qed.

Lemma run_supported h args u :
  host_uname h = Some u →
  takes_ostype h = true →
  debug_host repr h args =
  MkCompleted 0 (full_report repr h u) None (processor_probe h) h.
Proof.
  intros Hu Hs. unfold debug_host, python3.
  rewrite (main_returns _ u) by assumption. reflexivity.
Qed.

Lemma run_unsupported h args :
  host_uname h = None →
  debug_host repr h args =
  MkCompleted 1 (report_before_uname h)
    (Some (MkTraceback 12 (AttributeError "os" "uname")))
    (processor_probe h) h.
Proof.
  intros Hu. unfold debug_host, python3.
  rewrite main_raises_at_uname by exact Hu. reflexivity.
Qed.

Lemma run_cut_at_ostype h args u :
  host_uname h = Some u →
  takes_ostype h = false →
  debug_host repr h args =
  MkCompleted 1 (report_before_ostype repr h u)
    (Some (MkTraceback 13
             (UnicodeEncodeError ("Environment OSTYPE: " +:+ ostype_shown h))))
    (processor_probe h) h.
Proof.
  intros Hu Hs. unfold debug_host, python3.
  rewrite (main_raises_at_ostype _ u) by assumption. reflexivity.
Qed.

(** The three courses, told apart by the exit status and by the number
    of texts printed. *)
Lemma run_courses h args :
  (host_uname h = None ∧
   debug_host repr h args =
   MkCompleted 1 (report_before_uname h)
     (Some (MkTraceback 12 (AttributeError "os" "uname")))
     (processor_probe h) h) ∨
  (∃ u, host_uname h = Some u ∧ takes_ostype h = false ∧
   debug_host repr h args =
   MkCompleted 1 (report_before_ostype repr h u)
     (Some (MkTraceback 13
              (UnicodeEncodeError ("Environment OSTYPE: " +:+ ostype_shown h))))
     (processor_probe h) h) ∨
  (∃ u, host_uname h = Some u ∧ takes_ostype h = true ∧
   debug_host repr h args =
   MkCompleted 0 (full_report repr h u) None (processor_probe h) h).
Proof.
  destruct (host_uname h) as [u|] eqn:Hu.
  - destruct (takes_ostype h) eqn:Hs.
    + right. right. exists u. auto using run_supported.
    + right. left. exists u. auto using run_cut_at_ostype.
  - left. auto using run_unsupported.
Qed.

Lemma exit_zero_full h args :
  exit_code (debug_host repr h args) = 0 →
  ∃ u, host_uname h = Some u ∧ takes_ostype h = true ∧
       debug_host repr h args =
       MkCompleted 0 (full_report repr h u) None (processor_probe h) h.
Proof.
  intros Hexit.
  destruct (run_courses h args)
    as [(_ & Hrun) | [(u & _ & _ & Hrun) | (u & Hu & Hs & Hrun)]].
  - rewrite Hrun in Hexit. discriminate Hexit.
  - rewrite Hrun in Hexit. discriminate Hexit.
  - now exists u.
Qed.

Lemma takes_ostype_unset h :
  host_environ h !! "OSTYPE" = None → takes_ostype h = true.
Proof.
  intros Hnone. unfold takes_ostype, ostype_shown. rewrite Hnone.
  now apply accepts_ascii.
Qed.

Lemma main_alone : leaves_host_alone (main repr).
Proof.
  unfold main, report_system, report_machine, report_platform,
    report_sys_platform, report_uname, report_ostype, report_exists.
  auto 40 with py_frame.
Qed.

(** ** Where the texts of a full report are *)

Lemma ostype_in_full_report h u :
  In ("Environment OSTYPE: " +:+ ostype_shown h) (full_report repr h u).
Proof. unfold full_report. do 6 right. left. reflexivity. Qed.

Lemma exists_in_full_report h u path :
  In path probed_paths →
  In (path +:+ " exists: " +:+ str_bool (path_found h path))
     (full_report repr h u).
Proof.
  unfold probed_paths, full_report. intros Hin.
  repeat (destruct Hin as [<- | Hin];
          [repeat first [left; reflexivity | right] |]).
  destruct Hin.
Qed.

Lemma label_in_full_report h u label :
  In label documented_labels →
  single_line label = true ∧ label ≠ "" ∧
  ∃ v, In (label +:+ v) (full_report repr h u).
Proof.
  unfold documented_labels, probed_paths. cbn [map app]. intros Hin.
  repeat (destruct Hin as [<- | Hin];
          [split; [reflexivity |]; split; [discriminate |];
           eexists; unfold full_report;
           repeat first [left; reflexivity | right] |]).
  destruct Hin.
Qed.

Lemma full_report_same h1 h2 u :
  same_host_state h1 h2 → full_report repr h1 u = full_report repr h2 u.
Proof.
  intros (Hs & Hm & Hp & Hsp & _ & He & Hf). unfold full_report.
  now rewrite Hs, Hm, Hp, Hsp, He, !Hf.
Qed.

Lemma report_before_uname_same h1 h2 :
  same_host_state h1 h2 → report_before_uname h1 = report_before_uname h2.
Proof.
  intros (Hs & Hm & Hp & Hsp & _ & He & _). unfold report_before_uname.
  now rewrite Hs, Hm, Hp, Hsp, He.
Qed.

(** Two hosts in the same state give the same run, up to the host handed
    back. *)
Lemma same_state_same_run h1 h2 args1 args2 :
  same_host_state h1 h2 →
  out (debug_host repr h1 args1) = out (debug_host repr h2 args2) ∧
  exit_code (debug_host repr h1 args1) = exit_code (debug_host repr h2 args2) ∧
  err (debug_host repr h1 args1) = err (debug_host repr h2 args2).
Proof.
  intros Hsame. pose proof Hsame as (_ & _ & _ & _ & Hu & He & _).
  assert (takes_ostype h1 = takes_ostype h2) as Htakes
    by (unfold takes_ostype, ostype_shown; now rewrite He).
  assert (ostype_shown h1 = ostype_shown h2) as Hshown
    by (unfold ostype_shown; now rewrite He).
  destruct (run_courses h1 args1)
    as [(Hu1 & ->) | [(u & Hu1 & Hs & ->) | (u & Hu1 & Hs & ->)]].
  - rewrite (run_unsupported h2 args2) by now rewrite <- Hu.
    cbn [out exit_code err]. now rewrite (report_before_uname_same h1 h2 Hsame).
  - rewrite (run_cut_at_ostype h2 args2 u) by now rewrite <- ?Hu, <- ?Htakes.
    cbn [out exit_code err]. unfold report_before_ostype.
    now rewrite (report_before_uname_same h1 h2 Hsame), Hshown.
  - rewrite (run_supported h2 args2 u) by now rewrite <- ?Hu, <- ?Htakes.
    cbn [out exit_code err]. now rewrite (full_report_same h1 h2 u Hsame).
Qed.

Lemma run_host_after h args : host_after (debug_host repr h args) = h.
Proof.
  destruct (run_courses h args)
    as [(_ & ->) | [(u & _ & _ & ->) | (u & _ & _ & ->)]]; reflexivity.
Qed.

(** ** Runs on hosts that answer alike *)

Lemma full_report_same_answers h1 h2 u :
  same_answers h1 h2 → full_report repr h1 u = full_report repr h2 u.
Proof.
  intros (Hs & Hm & Hp & Hsp & _ & He & _ & Hf). unfold full_report.
  rewrite Hs, Hm, Hp, Hsp, He.
  rewrite !(Hf _) by (unfold probed_paths; repeat first [left; reflexivity | right]).
  reflexivity.
Qed.

Lemma report_before_uname_same_answers h1 h2 :
  same_answers h1 h2 → report_before_uname h1 = report_before_uname h2.
Proof.
  intros (Hs & Hm & Hp & Hsp & _). unfold report_before_uname.
  now rewrite Hs, Hm, Hp, Hsp.
Qed.

Lemma processor_probe_same h1 h2 :
  host_sys_platform h1 = host_sys_platform h2 →
  processor_probe h1 = processor_probe h2.
Proof. intros Hsp. unfold processor_probe. now rewrite Hsp. Qed.

Lemma same_answers_same_run h1 h2 args1 args2 :
  same_answers h1 h2 →
  out (debug_host repr h1 args1) = out (debug_host repr h2 args2) ∧
  exit_code (debug_host repr h1 args1) = exit_code (debug_host repr h2 args2) ∧
  err (debug_host repr h1 args1) = err (debug_host repr h2 args2) ∧
  effects (debug_host repr h1 args1) = effects (debug_host repr h2 args2).
Proof.
  intros Hsame. pose proof Hsame as (_ & _ & _ & Hsp & Hu & He & Htakes & _).
  assert (ostype_shown h1 = ostype_shown h2) as Hshown
    by (unfold ostype_shown; now rewrite He).
  pose proof (processor_probe_same h1 h2 Hsp) as Hprobe.
  destruct (run_courses h1 args1)
    as [(Hu1 & ->) | [(u & Hu1 & Hs & ->) | (u & Hu1 & Hs & ->)]].
  - rewrite (run_unsupported h2 args2) by now rewrite <- Hu.
    cbn [out exit_code err effects].
    now rewrite (report_before_uname_same_answers h1 h2 Hsame), Hprobe.
  - rewrite (run_cut_at_ostype h2 args2 u) by now rewrite <- ?Hu, <- ?Htakes.
    cbn [out exit_code err effects]. unfold report_before_ostype.
    now rewrite (report_before_uname_same_answers h1 h2 Hsame), Hshown, Hprobe.
  - rewrite (run_supported h2 args2 u) by now rewrite <- ?Hu, <- ?Htakes.
    cbn [out exit_code err effects].
    now rewrite (full_report_same_answers h1 h2 u Hsame), Hprobe.
Qed.

(** The texts of a full report, read back one by one. *)
Lemma full_report_read_back h1 h2 u1 u2 :
  full_report repr h1 u1 = full_report repr h2 u2 →
  host_system h1 = host_system h2 ∧
  host_machine h1 = host_machine h2 ∧
  host_platform h1 (host_environ h1 !! "PATH") =
    host_platform h2 (host_environ h2 !! "PATH") ∧
  host_sys_platform h1 = host_sys_platform h2 ∧
  str_uname repr u1 = str_uname repr u2 ∧
  ostype_shown h1 = ostype_shown h2 ∧
  ∀ path, In path probed_paths → path_found h1 path = path_found h2 path.
Proof.
  intros Heq.
  assert (∀ k, nth k (full_report repr h1 u1) "" = nth k (full_report repr h2 u2) "")
    as Hnth by (intros k; now rewrite Heq).
  unfold full_report in Hnth.
  pose proof (Hnth 1) as H1. pose proof (Hnth 2) as H2.
  pose proof (Hnth 3) as H3. pose proof (Hnth 4) as H4.
  pose proof (Hnth 5) as H5. pose proof (Hnth 6) as H6.
  pose proof (Hnth 8) as P1. pose proof (Hnth 9) as P2.
  pose proof (Hnth 10) as P3. pose proof (Hnth 11) as P4.
  pose proof (Hnth 12) as P5. pose proof (Hnth 13) as P6.
  pose proof (Hnth 14) as P7.
  cbn [nth] in *.
  apply (inj (String.append _)) in H1, H2, H3, H4, H5, H6.
  apply atext_eq in H1, H2, H3, H4.
  apply (inj (String.append _)), str_bool_inj in P1, P2, P3, P4, P5, P6, P7.
  repeat (split; [assumption |]).
  unfold probed_paths. intros path Hin.
  repeat (destruct Hin as [<- | Hin]; [assumption |]).
  destruct Hin.
Qed.

Lemma full_report_length h u : length (full_report repr h u) = 17.
Proof. reflexivity. Qed.

Lemma report_before_ostype_length h u : length (report_before_ostype repr h u) = 6.
Proof. reflexivity. Qed.

Lemma report_before_uname_length h : length (report_before_uname h) = 5.
Proof. reflexivity. Qed.

(** * Main results *)

(** C1, as amended.  The environment report.  With [OSTYPE] unset the
    statement prints the placeholder after the label and does not raise.
    With [OSTYPE] set to [X] it prints [X] after the label when the
    encoding of standard output takes [X]; when the encoding does not, it
    raises [UnicodeEncodeError] and prints nothing.  On a run that reaches
    the statement (the kernel info line before it went through) and whose
    encoding takes the value, the exit status is 0 and the text is in the
    output: the label, [X] and the newline follow each other, and they are
    a line of the output when [X] has no newline of its own. *)
Theorem environment_report (h : Host) (args : list string) :
  (∀ w, host w = h → host_environ h !! "OSTYPE" = None →
     prints report_ostype w ("Environment OSTYPE: " +:+ ostype_placeholder)) ∧
  (∀ w X, host w = h → host_environ h !! "OSTYPE" = Some X →
     accepts (encoding w) X = true →
     prints report_ostype w ("Environment OSTYPE: " +:+ X)) ∧
  (∀ w X, host w = h → host_environ h !! "OSTYPE" = Some X →
     accepts (encoding w) X = false →
     report_ostype w =
     (Raised (UnicodeEncodeError ("Environment OSTYPE: " +:+ X)), w)) ∧
  (∀ u, host_uname h = Some u →
     (host_environ h !! "OSTYPE" = None →
        exit_code (debug_host repr h args) = 0 ∧
        shows (debug_host repr h args)
          ("Environment OSTYPE: " +:+ ostype_placeholder)) ∧
     (∀ X, host_environ h !! "OSTYPE" = Some X →
        accepts (stdout_encoding (host_environ h)) X = true →
        exit_code (debug_host repr h args) = 0 ∧
        In ("Environment OSTYPE: " +:+ X) (out (debug_host repr h args)) ∧
        contains (stdout_text (out (debug_host repr h args)))
          ("Environment OSTYPE: " +:+ X +:+ newline) ∧
        (single_line X = true →
           shows (debug_host repr h args) ("Environment OSTYPE: " +:+ X)))).
Proof.
  split; [| split; [| split]].
  - intros w <- Hnone.
    pose proof (report_ostype_prints w) as Hp. unfold ostype_shown in Hp.
    rewrite Hnone in Hp. apply Hp. now apply accepts_ascii.
  - intros w X <- Hsome Hs.
    pose proof (report_ostype_prints w) as Hp. unfold ostype_shown in Hp.
    rewrite Hsome in Hp. exact (Hp Hs).
  - intros w X <- Hsome Hs.
    pose proof (report_ostype_raises w) as Hp. unfold ostype_shown in Hp.
    rewrite Hsome in Hp. exact (Hp Hs).
  - intros u Hu. split.
    + intros Hnone. unfold shows.
      rewrite (run_supported h args u Hu (takes_ostype_unset h Hnone)).
      cbn [out exit_code]. split; [reflexivity |].
      pose proof (ostype_in_full_report h u) as Hin.
      unfold ostype_shown in Hin. rewrite Hnone in Hin.
      apply printed_line_shown; [reflexivity | exact Hin].
    + intros X Hsome Hs. unfold shows.
      assert (takes_ostype h = true) as Htakes
        by (unfold takes_ostype, ostype_shown; now rewrite Hsome).
      rewrite (run_supported h args u Hu Htakes). cbn [out exit_code].
      split; [reflexivity |].
      pose proof (ostype_in_full_report h u) as Hin.
      unfold ostype_shown in Hin. rewrite Hsome in Hin. cbn [default] in Hin.
      split; [exact Hin |]. split.
      * rewrite <- append_assoc. now apply printed_text_contained.
      * intros HX. apply printed_line_shown; [| exact Hin].
        rewrite single_line_app, HX. reflexivity.
Qed.

(** C2, as amended.  On a host that has the [uname] call, where [/proc]
    exists and [/System] does not, and where the encoding of standard
    output takes what the [OSTYPE] line shows (as it does when [OSTYPE]
    is unset), the output has the line [/proc exists: True] and the line
    [/System exists: False]. *)
Theorem proc_and_system_lines (h : Host) (args : list string)
    (u : uname_result) (e : os_error) :
  host_uname h = Some u →
  takes_ostype h = true →
  host_stat h "/proc" = StatOk →
  host_stat h "/System" = StatError e →
  shows (debug_host repr h args) "/proc exists: True" ∧
  shows (debug_host repr h args) "/System exists: False".
Proof.
  intros Hu Htakes Hproc Hsys. unfold shows.
  rewrite (run_supported h args u Hu Htakes). cbn [out].
  pose proof (exists_in_full_report h u "/proc") as Hp.
  pose proof (exists_in_full_report h u "/System") as Hs.
  unfold path_found in Hp, Hs. rewrite Hproc in Hp. rewrite Hsys in Hs.
  split; (apply printed_line_shown; [reflexivity |]).
  - apply Hp. unfold probed_paths. now left.
  - apply Hs. unfold probed_paths. do 4 right. now left.
Qed.

(** C3. The path report.  For every path of the fixed list the statement
    that reports it never raises; it prints [True] after the label when
    [os.stat] finds the path and [False] when [os.stat] raises, a
    permission error included.  On a run that exits with status 0 each of
    the seven texts is printed. *)
Theorem path_report (path : string) :
  In path probed_paths →
  (∀ w,
     ¬ fails (report_exists path) w ∧
     (host_stat (host w) path = StatOk →
        prints (report_exists path) w (path +:+ " exists: True")) ∧
     (∀ e, host_stat (host w) path = StatError e →
        prints (report_exists path) w (path +:+ " exists: False")) ∧
     (host_stat (host w) path = StatError EACCES →
        prints (report_exists path) w (path +:+ " exists: False"))) ∧
  (∀ h args, exit_code (debug_host repr h args) = 0 →
     In (path +:+ " exists: " +:+ str_bool (path_found h path))
        (out (debug_host repr h args))).
Proof.
  intros Hin. split.
  - intros w.
    pose proof (report_exists_prints path w (probed_paths_ascii path Hin)) as Hp.
    unfold path_found in Hp. split; [| split; [| split]].
    + intros [e He]. rewrite Hp in He. discriminate He.
    + intros Hs. now rewrite Hs in Hp.
    + intros e Hs. now rewrite Hs in Hp.
    + intros Hs. now rewrite Hs in Hp.
  - intros h args Hexit.
    destruct (exit_zero_full h args Hexit) as (u & _ & _ & ->). cbn [out].
    now apply exists_in_full_report.
Qed.

(** C4. The kernel info report.  The statement that prints
    [os.uname()] raises exactly on a host without the [uname] call, and
    prints the tuple on every host that has it.  Without the call nobody
    catches the error: the run exits with status 1, a traceback for source
    line 12 is written, and the output stops after the five texts printed
    before, none of which is the [OSTYPE] text or the text of a probed
    path. *)
Theorem uname_report (h : Host) (args : list string) :
  (∀ w, host w = h → (fails (report_uname repr) w ↔ host_uname h = None)) ∧
  (∀ w u, host w = h → host_uname h = Some u →
     prints (report_uname repr) w ("OS uname: " +:+ str_uname repr u)) ∧
  (host_uname h = None →
     exit_code (debug_host repr h args) = 1 ∧
     err (debug_host repr h args) =
       Some (MkTraceback 12 (AttributeError "os" "uname")) ∧
     out (debug_host repr h args) = report_before_uname h ∧
     ∀ l v, In l (out (debug_host repr h args)) →
       l ≠ "Environment OSTYPE: " +:+ v ∧
       ∀ path, In path probed_paths → l ≠ path +:+ " exists: " +:+ v).
Proof.
  split; [| split].
  - intros w <-. split.
    + intros [e He]. destruct (host_uname (host w)) as [u|] eqn:Hu; [| reflexivity].
      rewrite (report_uname_prints w u Hu) in He. discriminate He.
    + intros Hu. exists (AttributeError "os" "uname").
      now rewrite (report_uname_raises w Hu).
  - intros w u <- Hu. now apply report_uname_prints.
  - intros Hu. rewrite (run_unsupported h args Hu).
    cbn [exit_code err out]. do 3 (split; [reflexivity |]).
    intros l v Hl. unfold report_before_uname in Hl. split.
    + repeat (destruct Hl as [<- | Hl]; [intros Heq; discriminate Heq |]).
      destruct Hl.
    + intros path Hpath. unfold probed_paths in Hpath.
      repeat (destruct Hpath as [<- | Hpath];
              [repeat (destruct Hl as [<- | Hl]; [intros Heq; discriminate Heq |]);
               destruct Hl |]).
      destruct Hpath.
Qed.

(** C5, as amended.  On every host that has the [uname] call and where
    the encoding of standard output takes what the [OSTYPE] line shows (as
    it does when [OSTYPE] is unset), the run exits with status 0, writes no
    traceback, and its output has a non-empty line for each documented
    label: the line opens with the label. *)
Theorem supported_host_report (h : Host) (args : list string) (u : uname_result) :
  host_uname h = Some u →
  takes_ostype h = true →
  exit_code (debug_host repr h args) = 0 ∧
  err (debug_host repr h args) = None ∧
  ∀ label, In label documented_labels →
    ∃ v, shows (debug_host repr h args) (label +:+ v) ∧ label +:+ v ≠ "".
Proof.
  intros Hu Htakes. unfold shows. rewrite (run_supported h args u Hu Htakes).
  cbn [exit_code err out]. repeat split.
  intros label Hin.
  destruct (label_in_full_report h u label Hin) as (Hsl & Hne & v & Hv).
  destruct (printed_label_shown _ label v Hsl Hv) as [v' Hv'].
  exists v'. split; [exact Hv' |].
  destruct label; [congruence | discriminate].
Qed.

(** C6. The run is a function of the host state.  Two hosts with the
    same platform values, kernel info, environment variables and
    path-existence facts give the same text on standard output, character
    for character, the same exit status and the same traceback; and a
    second run, on the host as the first run left it, gives what the first
    gave. *)
Theorem deterministic (h1 h2 : Host) (args : list string) :
  same_host_state h1 h2 →
  same_result (debug_host repr h1 args) (debug_host repr h2 args) ∧
  same_result (debug_host repr (host_after (debug_host repr h1 args)) args)
              (debug_host repr h1 args).
Proof.
  intros Hsame. unfold same_result. split.
  - destruct (same_state_same_run h1 h2 args args Hsame) as (-> & -> & ->).
    repeat split.
  - rewrite run_host_after. repeat split.
Qed.

(** C7, as amended.  [OSTYPE] is the one environment variable the
    script itself reads.  Two environments that agree on [OSTYPE], on
    [PATH] (through which [platform.platform()] finds its helper) and on
    whether the encoding they give standard output takes what the [OSTYPE]
    line shows, give the same output, exit status and traceback, whatever
    their other variables; and on a run that reaches the statement, a value
    of [OSTYPE] that the encoding takes gives an output no other value
    gives. *)
Theorem only_ostype_is_read (h : Host) (env1 env2 : gmap string string)
    (args : list string) :
  env1 !! "OSTYPE" = env2 !! "OSTYPE" →
  env1 !! "PATH" = env2 !! "PATH" →
  takes_ostype (with_environ h env1) = takes_ostype (with_environ h env2) →
  same_result (debug_host repr (with_environ h env1) args)
              (debug_host repr (with_environ h env2) args) ∧
  (∀ X Y, is_Some (host_uname h) → X ≠ Y →
     takes_ostype (with_environ h (<["OSTYPE" := X]> env1)) = true →
     out (debug_host repr (with_environ h (<["OSTYPE" := X]> env1)) args) ≠
     out (debug_host repr (with_environ h (<["OSTYPE" := Y]> env1)) args)).
Proof.
  intros Henv Hpath Htakes. split.
  - assert (same_answers (with_environ h env1) (with_environ h env2)) as Hsame.
    { unfold same_answers, with_environ, path_found.
      cbn [host_system host_machine host_platform host_sys_platform
           host_uname host_environ host_stat].
      rewrite Hpath. repeat split; assumption. }
    destruct (same_answers_same_run _ _ args args Hsame) as (Hout & Hexit & Herr & _).
    unfold same_result. now rewrite Hout, Hexit, Herr.
  - intros X Y [u Hu] Hne HX Heq.
    rewrite (run_supported (with_environ h (<["OSTYPE" := X]> env1)) args u Hu HX)
      in Heq.
    cbn [out] in Heq.
    destruct (run_courses (with_environ h (<["OSTYPE" := Y]> env1)) args)
      as [(Hnone & _) | [(u' & _ & _ & Hrun) | (u' & _ & _ & Hrun)]].
    + cbn in Hnone. congruence.
    + rewrite Hrun in Heq. cbn [out] in Heq.
      apply (f_equal length) in Heq.
      rewrite full_report_length, report_before_ostype_length in Heq.
      discriminate Heq.
    + rewrite Hrun in Heq. cbn [out] in Heq.
      apply full_report_read_back in Heq as (_ & _ & _ & _ & _ & Hshown & _).
      unfold ostype_shown, with_environ in Hshown. cbn [host_environ] in Hshown.
      rewrite !lookup_insert_eq in Hshown. exact (Hne Hshown).
Qed.

(** C8, as amended.  A run leaves the host as it was.  Started in any
    world, the script leaves the host (its environment variables and its
    file system included), the arguments and the encoding as they were and
    only adds to what was printed; the system calls it makes besides plain
    queries are those of the processor probe inside [platform.platform()]:
    opening [/dev/null] and starting [uname -p].  After a run the host is
    the host before it, and a run that exits with status 0 has written no
    traceback. *)
Theorem run_leaves_host_unchanged (h : Host) (args : list string) :
  leaves_host_alone (main repr) ∧
  host_after (debug_host repr h args) = h ∧
  Forall probe_call (effects (debug_host repr h args)) ∧
  (exit_code (debug_host repr h args) = 0 →
   err (debug_host repr h args) = None).
Proof.
  split; [apply main_alone |]. split; [apply run_host_after |]. split.
  - destruct (run_courses h args)
      as [(_ & ->) | [(u & _ & _ & ->) | (u & _ & _ & ->)]];
      apply probe_calls_of_probe.
  - intros Hexit. now destruct (exit_zero_full h args Hexit) as (u & _ & _ & ->).
Qed.

(** C9. The placeholder printed for an absent [OSTYPE] is the text
    [not set]. *)
Theorem placeholder_is_not_set (w : World) :
  host_environ (host w) !! "OSTYPE" = None →
  prints report_ostype w "Environment OSTYPE: not set".
Proof.
  intros Hnone. pose proof (report_ostype_prints w) as Hp.
  unfold ostype_shown in Hp. rewrite Hnone in Hp.
  apply Hp. now apply accepts_ascii.
Qed.

(** C10. The run does not depend on the command-line arguments: on a
    given host any two argument lists give the same output, exit status,
    traceback and host. *)
Theorem arguments_ignored (h : Host) (args1 args2 : list string) :
  debug_host repr h args1 = debug_host repr h args2.
Proof.
  destruct (run_courses h args1)
    as [(Hu & ->) | [(u & Hu & Hs & ->) | (u & Hu & Hs & ->)]].
  - now rewrite (run_unsupported h args2 Hu).
  - now rewrite (run_cut_at_ostype h args2 u Hu Hs).
  - now rewrite (run_supported h args2 u Hu Hs).
Qed.

End Properties.

(** * Further results *)

Section FurtherProperties.

Context `{Startup}.

Variable repr : atext → atext.

(** X1. On every host, also on one where the run is cut short at the
    kernel info line, the run first prints the banner and the four platform
    texts, in the order of the source; the first line of the output is the
    banner; and nothing more is printed exactly when the host has no
    [uname] call. *)
Theorem platform_texts_on_every_host (h : Host) (args : list string) :
  ∃ rest,
    out (debug_host repr h args) = (report_before_uname h ++ rest)%list ∧
    hd "" (lines (stdout_text (out (debug_host repr h args)))) =
      "=== Host Detection Debug ===" ∧
    (rest = [] ↔ host_uname h = None).
Proof.
  destruct (run_courses repr h args)
    as [(Hu & ->) | [(u & Hu & _ & ->) | (u & Hu & _ & ->)]]; cbn [out].
  - exists []. split; [now rewrite app_nil_r |]. split; [| tauto].
    unfold report_before_uname. rewrite stdout_text_cons.
    now rewrite lines_first.
  - exists ["OS uname: " +:+ str_uname repr u]. split; [reflexivity |]. split.
    + unfold report_before_ostype, report_before_uname. cbn [app].
      rewrite stdout_text_cons. now rewrite lines_first.
    + rewrite Hu. split; intros Habs; discriminate Habs.
  - exists (skipn 5 (full_report repr h u)). split; [reflexivity |]. split.
    + unfold full_report. rewrite stdout_text_cons.
      now rewrite lines_first.
    + rewrite Hu. unfold full_report. cbn [skipn].
      split; intros Habs; discriminate Habs.
Qed.

(** X2. The run depends on the host only through the answers to its
    queries.  Two hosts with the same platform values (that of
    [platform.platform()] under each host's [PATH]) and kernel info, the
    same lookup of [OSTYPE], the same verdict of the encoding of standard
    output on what the [OSTYPE] line shows, and the same found-or-not
    answer for each of the seven probed paths give the same printed texts,
    exit status and traceback, with any arguments: other paths and the
    kind of error behind a path that is not found do not show. *)
Theorem only_the_queries_matter (h1 h2 : Host) (args1 args2 : list string) :
  same_answers h1 h2 →
  out (debug_host repr h1 args1) = out (debug_host repr h2 args2) ∧
  exit_code (debug_host repr h1 args1) = exit_code (debug_host repr h2 args2) ∧
  err (debug_host repr h1 args1) = err (debug_host repr h2 args2).
Proof.
  intros Hsame.
  destruct (same_answers_same_run repr h1 h2 args1 args2 Hsame)
    as (Hout & Hexit & Herr & _).
  auto.
Qed.

(** X3. A full report can be read back.  When two runs that both exit
    with status 0 printed the same texts, the two hosts have the same four
    platform values, the same rendering of the kernel info, the same text
    shown for [OSTYPE], and the same found-or-not answer for each of the
    seven probed paths. *)
Theorem report_reads_back (h1 h2 : Host) (args1 args2 : list string)
    (u1 u2 : uname_result) :
  host_uname h1 = Some u1 →
  host_uname h2 = Some u2 →
  exit_code (debug_host repr h1 args1) = 0 →
  exit_code (debug_host repr h2 args2) = 0 →
  out (debug_host repr h1 args1) = out (debug_host repr h2 args2) →
  host_system h1 = host_system h2 ∧
  host_machine h1 = host_machine h2 ∧
  host_platform h1 (host_environ h1 !! "PATH") =
    host_platform h2 (host_environ h2 !! "PATH") ∧
  host_sys_platform h1 = host_sys_platform h2 ∧
  str_uname repr u1 = str_uname repr u2 ∧
  ostype_shown h1 = ostype_shown h2 ∧
  ∀ path, In path probed_paths → path_found h1 path = path_found h2 path.
Proof.
  intros Hu1 Hu2 Hexit1 Hexit2.
  destruct (exit_zero_full repr h1 args1 Hexit1) as (u1' & Hu1' & _ & ->).
  destruct (exit_zero_full repr h2 args2 Hexit2) as (u2' & Hu2' & _ & ->).
  assert (u1' = u1) as -> by congruence.
  assert (u2' = u2) as -> by congruence.
  cbn [out]. apply full_report_read_back.
Qed.

(** X4. The placeholder is in band.  An environment without [OSTYPE]
    and the same environment with [OSTYPE] set to the text [not set] give
    the same printed texts, exit status and traceback; and on a run that
    gets past the kernel info line no other value of [OSTYPE] prints what
    the unset variable prints. *)
Theorem unset_reads_as_not_set (h : Host) (env : gmap string string)
    (args : list string) :
  env !! "OSTYPE" = None →
  (out (debug_host repr (with_environ h env) args) =
     out (debug_host repr (with_environ h (<["OSTYPE" := "not set"]> env)) args) ∧
   exit_code (debug_host repr (with_environ h env) args) =
     exit_code (debug_host repr (with_environ h (<["OSTYPE" := "not set"]> env)) args) ∧
   err (debug_host repr (with_environ h env) args) =
     err (debug_host repr (with_environ h (<["OSTYPE" := "not set"]> env)) args)) ∧
  (∀ X, is_Some (host_uname h) →
     out (debug_host repr (with_environ h (<["OSTYPE" := X]> env)) args) =
       out (debug_host repr (with_environ h env) args) →
     X = "not set").
Proof.
  intros Hnone.
  assert (takes_ostype (with_environ h env) = true) as Hunset
    by (now apply takes_ostype_unset).
  assert (takes_ostype (with_environ h (<["OSTYPE" := "not set"]> env)) = true)
    as Hset.
  { unfold takes_ostype, ostype_shown, with_environ. cbn [host_environ].
    rewrite lookup_insert_eq. now apply accepts_ascii. }
  split.
  - destruct (host_uname h) as [u|] eqn:Hu.
    + rewrite (run_supported repr (with_environ h env) args u Hu Hunset).
      rewrite (run_supported repr
                 (with_environ h (<["OSTYPE" := "not set"]> env)) args u Hu Hset).
      cbn [out exit_code err]. unfold full_report, with_environ, path_found.
      cbn [host_system host_machine host_platform host_sys_platform
           host_environ host_stat].
      rewrite lookup_insert_eq, Hnone, lookup_insert_ne by discriminate.
      repeat split.
    + rewrite (run_unsupported repr (with_environ h env) args Hu).
      rewrite (run_unsupported repr
                 (with_environ h (<["OSTYPE" := "not set"]> env)) args Hu).
      cbn [out exit_code err]. unfold report_before_uname, with_environ.
      cbn [host_system host_machine host_platform host_sys_platform host_environ].
      rewrite lookup_insert_ne by discriminate. repeat split.
  - intros X [u Hu] Heq.
    rewrite (run_supported repr (with_environ h env) args u Hu Hunset) in Heq.
    cbn [out] in Heq.
    destruct (run_courses repr (with_environ h (<["OSTYPE" := X]> env)) args)
      as [(Habs & _) | [(u' & _ & _ & Hrun) | (u' & _ & _ & Hrun)]].
    + cbn in Habs. congruence.
    + rewrite Hrun in Heq. cbn [out] in Heq.
      apply (f_equal length) in Heq.
      rewrite full_report_length, report_before_ostype_length in Heq.
      discriminate Heq.
    + rewrite Hrun in Heq. cbn [out] in Heq.
      apply full_report_read_back in Heq as (_ & _ & _ & _ & _ & Hshown & _).
      unfold ostype_shown, with_environ in Hshown. cbn [host_environ] in Hshown.
      rewrite lookup_insert_eq, Hnone in Hshown. exact Hshown.
Qed.

(** The texts of a full report from the first section header on, with
    the newline in front of each header read as an empty text before it. *)
Lemma full_report_closing h u :
  ∃ opening,
    stdout_text (full_report repr h u) =
    opening +:+ newline +:+
    stdout_text
      ([""; "=== Virtualization Check ==="] ++
       map (λ path, path +:+ " exists: " +:+ str_bool (path_found h path))
           probed_paths ++
       [""; "=== Manual Meson Check ==="; meson_hint]).
Proof.
  exists (stdout_text (firstn 6 (full_report repr h u)) +:+
          "Environment OSTYPE: " +:+
          default ostype_placeholder (host_environ h !! "OSTYPE")).
  change (full_report repr h u) with
    (firstn 6 (full_report repr h u) ++
     ("Environment OSTYPE: " +:+
        default ostype_placeholder (host_environ h !! "OSTYPE")) ::
     ((newline +:+ "=== Virtualization Check ===") ::
      map (λ path, path +:+ " exists: " +:+ str_bool (path_found h path))
          probed_paths) ++
     [newline +:+ "=== Manual Meson Check ==="; meson_hint])%list at 1.
  rewrite stdout_text_app, stdout_text_cons, stdout_text_app.
  rewrite stdout_text_blank_before.
  rewrite (stdout_text_blank_before "=== Manual Meson Check ===").
  rewrite <- stdout_text_app, !append_assoc. reflexivity.
Qed.

(** X5. Whatever the host's values, the output of a run that exits with
    status 0 ends with the same twelve lines: a blank line and the first
    section header, the seven path lines in the order of the source, each
    showing whether its path was found, a blank line and the second
    section header, the hint, and the empty end after the last newline. *)
Theorem report_ends_with_path_section (h : Host) (args : list string) :
  exit_code (debug_host repr h args) = 0 →
  ∃ front,
    lines (stdout_text (out (debug_host repr h args))) =
    (front ++ closing_lines h)%list.
Proof.
  intros Hexit.
  destruct (exit_zero_full repr h args Hexit) as (u & _ & _ & ->). cbn [out].
  destruct (full_report_closing h u) as [opening ->].
  match goal with
  | |- context [lines (opening +:+ newline +:+ ?t)] =>
      destruct (lines_after_newline opening t) as (f & front & ->)
  end.
  exists (f :: front). rewrite lines_of_single_lines.
  - unfold closing_lines. cbn [app]. now rewrite <- !app_assoc.
  - unfold probed_paths. cbn [map app].
    repeat (constructor;
            [first [reflexivity
                   | rewrite !single_line_app, single_line_str_bool; reflexivity] |]).
    constructor.
Qed.

(** X6. A value of [OSTYPE] that the encoding of standard output takes
    is printed as it is.  When it holds a newline, what follows the
    newline is a line of the output of its own, whatever it says: it can
    read like a line of the path report. *)
Theorem ostype_value_continues_on_next_line (h : Host) (args : list string)
    (u : uname_result) (first rest : string) :
  host_uname h = Some u →
  host_environ h !! "OSTYPE" = Some (first +:+ newline +:+ rest) →
  accepts (stdout_encoding (host_environ h)) (first +:+ newline +:+ rest) = true →
  single_line rest = true →
  shows (debug_host repr h args) rest.
Proof.
  intros Hu Henv Htakes Hrest. unfold shows.
  assert (takes_ostype h = true) as Htakes'
    by (unfold takes_ostype, ostype_shown; now rewrite Henv).
  rewrite (run_supported repr h args u Hu Htakes'). cbn [out].
  pose proof (ostype_in_full_report repr h u) as Hin.
  unfold ostype_shown in Hin. rewrite Henv in Hin.
  assert (In (("Environment OSTYPE: " +:+ first) +:+ newline +:+ rest)
             (full_report repr h u)) as Hin'
    by (rewrite append_assoc; exact Hin).
  exact (printed_continuation_shown _ _ rest Hrest Hin').
Qed.

End FurtherProperties.

(** * The results on the sample hosts *)

Example linux_run :
  debug_host plain_repr linux_host ["--verbose"] =
  MkCompleted 0
    [ "=== Host Detection Debug ===";
      "Python platform.system(): Linux";
      "Python platform.machine(): x86_64";
      "Python platform.platform(): Linux-6.1.0-x86_64-with-glibc2.36";
      "Python sys.platform: linux";
      "OS uname: posix.uname_result(sysname='Linux', nodename='buildbox', release='6.1.0', version='#1 SMP', machine='x86_64')";
      "Environment OSTYPE: linux-gnu";
      newline +:+ "=== Virtualization Check ===";
      "/proc exists: True";
      "/sys exists: False";
      "/run exists: True";
      "/lib64 exists: True";
      "/System exists: False";
      "/Applications exists: False";
      "/usr/lib/dyld exists: False";
      newline +:+ "=== Manual Meson Check ===";
      "Try running: python3 -c " +:+ dquote +:+
        "import platform; print(platform.system())" +:+ dquote ]
    None
    [Open "/dev/null" ReadWrite; Spawn ["uname"; "-p"]]
    linux_host.
Proof. vm_compute. reflexivity. Qed.

Example windows_run :
  debug_host plain_repr windows_host [] =
  MkCompleted 1
    [ "=== Host Detection Debug ===";
      "Python platform.system(): Windows";
      "Python platform.machine(): AMD64";
      "Python platform.platform(): Windows-10-10.0.19045-SP0";
      "Python sys.platform: win32" ]
    (Some (MkTraceback 12 (AttributeError "os" "uname")))
    []
    windows_host.
Proof. vm_compute. reflexivity. Qed.

(** [OSTYPE] set to the byte [0xFF], standard output in UTF-8: the run
    stops at line 13, after six texts. *)
Example bad_ostype_run :
  debug_host plain_repr linux_host_bad_ostype [] =
  MkCompleted 1
    [ "=== Host Detection Debug ===";
      "Python platform.system(): Linux";
      "Python platform.machine(): x86_64";
      "Python platform.platform(): Linux-6.1.0-x86_64-with-glibc2.36";
      "Python sys.platform: linux";
      "OS uname: posix.uname_result(sysname='Linux', nodename='buildbox', release='6.1.0', version='#1 SMP', machine='x86_64')" ]
    (Some (MkTraceback 13
             (UnicodeEncodeError ("Environment OSTYPE: " +:+ byte_ff))))
    [Open "/dev/null" ReadWrite; Spawn ["uname"; "-p"]]
    linux_host_bad_ostype.
Proof. vm_compute. reflexivity. Qed.

(** The key is matched exactly: a variable [ostype] is not [OSTYPE]. *)
Example lower_case_ostype_not_read :
  prints report_ostype
    (linux_world (with_environ linux_host (<["ostype" := "linux-gnu"]> ∅)) 13)
    "Environment OSTYPE: not set".
Proof. vm_compute. reflexivity. Qed.

(** C1 as stated fails for a value that standard output cannot encode:
    with [OSTYPE] set to the byte [0xFF] and standard output in UTF-8 the
    statement raises and prints nothing, and the run exits with status 1
    without having printed the value. *)
Lemma ostype_value_not_encodable :
  host_environ linux_host_bad_ostype !! "OSTYPE" = Some byte_ff ∧
  report_ostype (linux_world linux_host_bad_ostype 13) =
    (Raised (UnicodeEncodeError ("Environment OSTYPE: " +:+ byte_ff)),
     linux_world linux_host_bad_ostype 13) ∧
  exit_code (debug_host plain_repr linux_host_bad_ostype []) = 1 ∧
  ¬ In ("Environment OSTYPE: " +:+ byte_ff)
       (out (debug_host plain_repr linux_host_bad_ostype [])).
Proof.
  do 3 (split; [vm_compute; reflexivity |]).
  vm_compute. intros Hin.
  repeat (destruct Hin as [Hin | Hin]; [discriminate Hin |]).
  exact Hin.
Qed.

Lemma environment_report_witness :
  prints report_ostype (linux_world linux_host 13)
    ("Environment OSTYPE: " +:+ "linux-gnu") ∧
  shows (debug_host plain_repr linux_host [])
    ("Environment OSTYPE: " +:+ "linux-gnu") ∧
  shows (debug_host plain_repr linux_host_no_ostype [])
    ("Environment OSTYPE: " +:+ ostype_placeholder) ∧
  report_ostype (linux_world linux_host_bad_ostype 13) =
    (Raised (UnicodeEncodeError ("Environment OSTYPE: " +:+ byte_ff)),
     linux_world linux_host_bad_ostype 13).
Proof.
  destruct (environment_report plain_repr linux_host [])
    as (_ & Hset & _ & Hrun).
  destruct (environment_report plain_repr linux_host_no_ostype [])
    as (_ & _ & _ & Hrun').
  destruct (environment_report plain_repr linux_host_bad_ostype [])
    as (_ & _ & Hbad & _).
  split; [| split; [| split]].
  - apply Hset; reflexivity.
  - destruct (Hrun linux_uname eq_refl) as (_ & Hshown).
    assert (accepts (stdout_encoding (host_environ linux_host)) "linux-gnu" = true)
      as Htakes by reflexivity.
    destruct (Hshown "linux-gnu" eq_refl Htakes) as (_ & _ & _ & Hline).
    apply Hline. reflexivity.
  - destruct (Hrun' linux_uname eq_refl) as (Hshown & _).
    apply Hshown. reflexivity.
  - apply Hbad; reflexivity.
Defined.

(** C2 as stated fails on a Unix-like host: [uname] is there, [/proc]
    exists, [/System] does not, and the run stops at line 13, on an
    [OSTYPE] that standard output cannot encode, before the path report:
    [/proc exists: True] is not a line of its output. *)
Lemma proc_line_missing_after_ostype_error :
  host_uname linux_host_bad_ostype = Some linux_uname ∧
  host_stat linux_host_bad_ostype "/proc" = StatOk ∧
  host_stat linux_host_bad_ostype "/System" = StatError ENOENT ∧
  exit_code (debug_host plain_repr linux_host_bad_ostype []) = 1 ∧
  ¬ shows (debug_host plain_repr linux_host_bad_ostype []) "/proc exists: True".
Proof.
  do 4 (split; [vm_compute; reflexivity |]).
  unfold shows. vm_compute. intros Hin.
  repeat (destruct Hin as [Hin | Hin]; [discriminate Hin |]).
  exact Hin.
Qed.

Lemma proc_and_system_lines_witness :
  shows (debug_host plain_repr linux_host []) "/proc exists: True" ∧
  shows (debug_host plain_repr linux_host []) "/System exists: False".
Proof.
  apply (proc_and_system_lines plain_repr linux_host [] linux_uname ENOENT);
    reflexivity.
Defined.

Lemma path_report_witness :
  prints (report_exists "/proc") (linux_world linux_host 17)
    ("/proc" +:+ " exists: True") ∧
  prints (report_exists "/sys") (linux_world linux_host 18)
    ("/sys" +:+ " exists: False") ∧
  prints (report_exists "/System") (linux_world linux_host 23)
    ("/System" +:+ " exists: False").
Proof.
  assert (In "/proc" probed_paths) as Hproc by (unfold probed_paths; now left).
  assert (In "/sys" probed_paths) as Hsys
    by (unfold probed_paths; right; now left).
  assert (In "/System" probed_paths) as Hsystem
    by (unfold probed_paths; do 4 right; now left).
  split; [| split].
  - destruct (path_report plain_repr "/proc" Hproc) as [Hop _].
    destruct (Hop (linux_world linux_host 17)) as (_ & Hfound & _).
    apply Hfound. reflexivity.
  - destruct (path_report plain_repr "/sys" Hsys) as [Hop _].
    destruct (Hop (linux_world linux_host 18)) as (_ & _ & _ & Hdenied).
    apply Hdenied. reflexivity.
  - destruct (path_report plain_repr "/System" Hsystem) as [Hop _].
    destruct (Hop (linux_world linux_host 23)) as (_ & _ & Hmissing & _).
    apply (Hmissing ENOENT). reflexivity.
Defined.

Lemma uname_report_witness :
  exit_code (debug_host plain_repr windows_host []) = 1 ∧
  err (debug_host plain_repr windows_host []) =
    Some (MkTraceback 12 (AttributeError "os" "uname")) ∧
  out (debug_host plain_repr windows_host []) = report_before_uname windows_host.
Proof.
  destruct (proj2 (proj2 (uname_report plain_repr windows_host [])) eq_refl)
    as (Hexit & Herr & Hout & _).
  exact (conj Hexit (conj Herr Hout)).
Defined.

(** C5 as stated fails on a host that has the [uname] call: with
    [OSTYPE] set to the byte [0xFF] and standard output in UTF-8 the run
    exits with status 1 after six texts, the [OSTYPE] line and the path
    lines unprinted. *)
Lemma unencodable_ostype_cuts_the_report :
  host_uname linux_host_bad_ostype = Some linux_uname ∧
  exit_code (debug_host plain_repr linux_host_bad_ostype []) ≠ 0 ∧
  length (out (debug_host plain_repr linux_host_bad_ostype [])) = 6 ∧
  ¬ shows (debug_host plain_repr linux_host_bad_ostype []) "/sys exists: False".
Proof.
  split; [reflexivity |]. split; [vm_compute; discriminate |].
  split; [vm_compute; reflexivity |].
  unfold shows. vm_compute. intros Hin.
  repeat (destruct Hin as [Hin | Hin]; [discriminate Hin |]).
  exact Hin.
Qed.

Lemma supported_host_report_witness :
  exit_code (debug_host plain_repr linux_host []) = 0 ∧
  ∃ v, shows (debug_host plain_repr linux_host []) ("OS uname: " +:+ v).
Proof.
  destruct (supported_host_report plain_repr linux_host [] linux_uname
              eq_refl eq_refl)
    as (Hexit & _ & Hlabels).
  split; [exact Hexit |].
  assert (In "OS uname: " documented_labels) as Hin
    by (unfold documented_labels; cbn [app]; do 4 right; left; reflexivity).
  destruct (Hlabels "OS uname: " Hin) as (v & Hv & _).
  exists v. exact Hv.
Defined.

Lemma deterministic_witness :
  same_result (debug_host plain_repr linux_host ["--verbose"])
              (debug_host plain_repr linux_host_enotdir ["--verbose"]).
Proof.
  assert (same_host_state linux_host linux_host_enotdir) as Hsame.
  { unfold same_host_state. do 6 (split; [reflexivity |]). intros path.
    unfold path_found, linux_host_enotdir, linux_host; cbn [host_stat].
    now destruct (linux_fs path) as [|[]]. }
  exact (proj1 (deterministic plain_repr linux_host linux_host_enotdir
                  ["--verbose"] Hsame)).
Defined.

(** C7 as stated fails: two environments with the same [OSTYPE], one of
    them with [PYTHONIOENCODING=ascii] besides, give runs with different
    exit status and output. *)
Lemma pythonioencoding_changes_the_run :
  accent_env !! "OSTYPE" = accent_env_ascii !! "OSTYPE" ∧
  exit_code (debug_host plain_repr (with_environ linux_host accent_env) []) = 0 ∧
  exit_code (debug_host plain_repr (with_environ linux_host accent_env_ascii) []) = 1 ∧
  ¬ same_result (debug_host plain_repr (with_environ linux_host accent_env) [])
                (debug_host plain_repr (with_environ linux_host accent_env_ascii) []).
Proof.
  do 3 (split; [vm_compute; reflexivity |]).
  intros (_ & Hexit & _). vm_compute in Hexit. discriminate Hexit.
Qed.

Lemma only_ostype_is_read_witness :
  same_result
    (debug_host plain_repr
       (with_environ linux_host (<["OSTYPE" := "linux-gnu"]> (<["HOME" := "/root"]> ∅))) [])
    (debug_host plain_repr
       (with_environ linux_host (<["LANG" := "C"]> (<["OSTYPE" := "linux-gnu"]> ∅))) []).
Proof.
  apply (only_ostype_is_read plain_repr linux_host); reflexivity.
Defined.

(** C8 as stated fails: the run on the Linux machine does more than
    write text to standard output.  Inside [platform.platform()] it opens
    [/dev/null] for reading and writing and starts the process
    [uname -p]. *)
Lemma run_starts_a_process :
  In (Spawn ["uname"; "-p"]) (effects (debug_host plain_repr linux_host [])) ∧
  In (Open "/dev/null" ReadWrite) (effects (debug_host plain_repr linux_host [])).
Proof. split; vm_compute; auto. Qed.

Lemma run_leaves_host_unchanged_witness :
  host_after (debug_host plain_repr linux_host ["--verbose"]) = linux_host ∧
  err (debug_host plain_repr linux_host ["--verbose"]) = None.
Proof.
  destruct (run_leaves_host_unchanged plain_repr linux_host ["--verbose"])
    as (_ & Hhost & _ & Herr).
  split; [exact Hhost |]. apply Herr. reflexivity.
Defined.

Lemma placeholder_is_not_set_witness :
  prints report_ostype (linux_world linux_host_no_ostype 13)
    "Environment OSTYPE: not set".
Proof. apply placeholder_is_not_set. reflexivity. Defined.

(** * The further results on the sample hosts *)

Lemma only_the_queries_matter_witness :
  out (debug_host plain_repr linux_host ["--verbose"]) =
    out (debug_host plain_repr linux_host_elsewhere []) ∧
  exit_code (debug_host plain_repr linux_host ["--verbose"]) =
    exit_code (debug_host plain_repr linux_host_elsewhere []) ∧
  err (debug_host plain_repr linux_host ["--verbose"]) =
    err (debug_host plain_repr linux_host_elsewhere []).
Proof.
  apply (only_the_queries_matter plain_repr linux_host linux_host_elsewhere).
  unfold same_answers. do 7 (split; [reflexivity |]).
  unfold probed_paths. intros path Hin.
  repeat (destruct Hin as [<- | Hin]; [reflexivity |]).
  destruct Hin.
Defined.

Lemma report_reads_back_witness :
  path_found linux_host "/sys" = path_found linux_host_elsewhere "/sys" ∧
  host_system linux_host = host_system linux_host_elsewhere.
Proof.
  assert (out (debug_host plain_repr linux_host []) =
          out (debug_host plain_repr linux_host_elsewhere ["-v"])) as Hout
    by (vm_compute; reflexivity).
  assert (exit_code (debug_host plain_repr linux_host []) = 0) as Hexit1
    by (vm_compute; reflexivity).
  assert (exit_code (debug_host plain_repr linux_host_elsewhere ["-v"]) = 0)
    as Hexit2 by (vm_compute; reflexivity).
  destruct (report_reads_back plain_repr linux_host linux_host_elsewhere
              [] ["-v"] linux_uname linux_uname eq_refl eq_refl
              Hexit1 Hexit2 Hout)
    as (Hsystem & _ & _ & _ & _ & _ & Hpaths).
  split; [| exact Hsystem].
  apply Hpaths. unfold probed_paths. right. left. reflexivity.
Defined.

Lemma unset_reads_as_not_set_witness :
  out (debug_host plain_repr (with_environ linux_host (<["HOME" := "/root"]> ∅)) []) =
  out (debug_host plain_repr
         (with_environ linux_host
            (<["OSTYPE" := "not set"]> (<["HOME" := "/root"]> ∅))) []).
Proof.
  assert ((<["HOME" := "/root"]> ∅ : gmap string string) !! "OSTYPE" = None)
    as Hunset by reflexivity.
  destruct (unset_reads_as_not_set plain_repr linux_host
              (<["HOME" := "/root"]> ∅) [] Hunset) as [(Hout & _ & _) _].
  exact Hout.
Defined.

Lemma report_ends_with_path_section_witness :
  ∃ front,
    lines (stdout_text (out (debug_host plain_repr linux_host []))) =
    (front ++ closing_lines linux_host)%list.
Proof.
  apply (report_ends_with_path_section plain_repr linux_host []).
  vm_compute. reflexivity.
Defined.

(** [/System] is not found on this host, and yet the output has a line
    saying it is: the second line of the value of [OSTYPE]. *)
Lemma ostype_value_continues_on_next_line_witness :
  path_found linux_host_two_lines "/System" = false ∧
  shows (debug_host plain_repr linux_host_two_lines []) "/System exists: True".
Proof.
  split; [reflexivity |].
  apply (ostype_value_continues_on_next_line plain_repr linux_host_two_lines []
           linux_uname "linux-gnu" "/System exists: True");
    reflexivity.
Defined.
